(** * importmagicserver.py: the EPC glue of importmagic.el

    The server keeps one process-wide [index] and registers four functions:
    [build_index], [get_unresolved_symbols], [get_candidates_for_symbol] and
    [get_import_statement].  Every one of them is a thin layer over the
    [importmagic] package, which is a third-party dependency: it is an
    interface here ([Importmagic]), and the theorems hold for every
    implementation of it.  [Sample] is one small implementation, used to run
    the functions on concrete inputs. *)

From Stdlib Require Import ZArith Ascii.
From Stdlib Require String.
From stdpp Require Import base list strings gmap.

Local Open Scope Z_scope.

(** ** Python values the server handles *)

(** Exceptions, by class.  [SystemExit] is what [sys.exit] raises;
    [AttributeError] carries the attribute looked up on [None]; [IndexError]
    is a subscript out of range; [SyntaxError] carries a position; [Custom]
    is a class defined by a package. *)
Inductive exn : Type :=
| AttributeError (attr : string)
| IndexError
| SyntaxError (pos : Z)
| SystemExit (code : Z)
| Custom (cls : string).

(** How a call ends: with a value or with an exception. *)
Inductive outcome (A : Type) : Type :=
| Return (a : A)
| Raise (e : exn).
Arguments Return {A} a.
Arguments Raise {A} e.

#[export] Instance outcome_ret : MRet outcome := fun A a => Return a.

#[export] Instance outcome_bind : MBind outcome := fun A B k m =>
  match m with
  | Return a => k a
  | Raise e => Raise e
  end.

(** ** The string operations of the source *)

(** [s.startswith(p)] *)
Definition startswith (s p : string) : bool := String.prefix p s.

(** [s.find(sub)]: the lowest index where [sub] occurs in [s], or [-1]. *)
Fixpoint find_from (sub s : string) (i : Z) : Z :=
  if String.prefix sub s then i
  else match s with
       | EmptyString => -1
       | String _ s' => find_from sub s' (i + 1)
       end.

Definition find (s sub : string) : Z := find_from sub s 0.

Fixpoint str_drop (n : nat) (s : string) : string :=
  match n, s with
  | O, _ => s
  | S _, EmptyString => EmptyString
  | S n', String _ s' => str_drop n' s'
  end.

Fixpoint str_take (n : nat) (s : string) : string :=
  match n, s with
  | O, _ => EmptyString
  | S _, EmptyString => EmptyString
  | S n', String c s' => String c (str_take n' s')
  end.

(** A slice bound [i] of a sequence of length [len]: a negative bound counts
    from the end, and every bound is clipped to [0 .. len]. *)
Definition slice_bound (len i : Z) : Z :=
  if i <? 0 then Z.max 0 (len + i) else Z.min i len.

(** [s[lo:hi]] *)
Definition slice (s : string) (lo hi : Z) : string :=
  let len := Z.of_nat (String.length s) in
  let a := slice_bound len lo in
  let b := slice_bound len hi in
  str_take (Z.to_nat (b - a)) (str_drop (Z.to_nat a) s).

(** [s[lo:]] *)
Definition slice_from (s : string) (lo : Z) : string :=
  str_drop (Z.to_nat (slice_bound (Z.of_nat (String.length s)) lo)) s.

(** [has_char c s]: the character [c] occurs in [s]. *)
Fixpoint has_char (c : ascii) (s : string) : bool :=
  match s with
  | EmptyString => false
  | String c' s' => if Ascii.eqb c' c then true else has_char c s'
  end.

(** [''.join(input_param)]: EPC hands a string over as a sequence of
    pieces. *)
Definition _stringify (input_param : list string) : string :=
  String.concat EmptyString input_param.

(** A string as EPC delivers it from Emacs Lisp: the list of its
    characters, each a string of its own (the comment above [_stringify]). *)
Definition chars (s : string) : list string :=
  map (fun c => String c EmptyString) (String.list_ascii_of_string s).

(** [t[i]] on the argument tuple. *)
Definition subscript {A : Type} (t : list A) (i : nat) : outcome A :=
  match t !! i with
  | Some x => Return x
  | None => Raise IndexError
  end.

(** ** The importmagic package, as the server uses it *)

(** Methods that mutate their object return the object after the call.
    [SymbolIndex_build_index] returns it also when it raises: the global
    [index] names that same object. *)
Class Importmagic : Type := {
  Score : Type;
  SymbolIndex : Type;
  Scope : Type;
  Imports : Type;
  (** [importmagic.SymbolIndex()] *)
  SymbolIndex_new : outcome SymbolIndex;
  (** [index.build_index(paths=...)] *)
  SymbolIndex_build_index : SymbolIndex -> list string -> option exn * SymbolIndex;
  (** [index.symbol_scores(symbol)]: triples (score, module, variable), the
      variable being [None] for a module *)
  symbol_scores : SymbolIndex -> string -> outcome (list (Score * string * option string));
  (** [importmagic.Scope.from_source(source)] *)
  Scope_from_source : string -> outcome Scope;
  (** [scope.find_unresolved_and_unreferenced_symbols()] *)
  find_unresolved_and_unreferenced_symbols : Scope -> outcome (gset string * gset string);
  (** [importmagic.importer.Imports(index, source)]; the index may be [None] *)
  Imports_new : option SymbolIndex -> string -> outcome Imports;
  (** [imports.add_import(module)] *)
  add_import : Imports -> string -> outcome Imports;
  (** [imports.add_import_from(module, name)] *)
  add_import_from : Imports -> string -> string -> outcome Imports;
  (** [imports.get_update()] *)
  get_update : Imports -> outcome (Z * Z * string)
}.

(** ** The server *)

Section Server.
Context {lib : Importmagic}.

(** The state of the process: the global [index] (initially [None]),
    [sys.path], and what was printed. *)
Record state : Type := State {
  index : option SymbolIndex;
  sys_path : list string;
  stdout : list string
}.

Definition set_index (st : state) (i : option SymbolIndex) : state :=
  {| index := i; sys_path := sys_path st; stdout := stdout st |}.

Definition print (line : string) (st : state) : state :=
  {| index := index st; sys_path := sys_path st; stdout := stdout st ++ [line] |}.

(** The list of roots [build_index] hands to the package. *)
Definition fullpath (st : state) (path : list string) : list string :=
  sys_path st ++ [_stringify path].

(** The body of the [except:] clause. *)
Definition failed_to_build (st : state) : outcome unit * state :=
  (Raise (SystemExit (-1)), print "Failed to build index" st).

Definition build_index (path : list string) (st : state) : outcome unit * state :=
  match SymbolIndex_new with
  | Return fresh =>
      match SymbolIndex_build_index fresh (fullpath st path) with
      | (None, built) => (Return tt, set_index st (Some built))
      | (Some _, broken) => failed_to_build (set_index st (Some broken))
      end
  | Raise _ => failed_to_build st
  end.

Definition get_unresolved_symbols (source : list string) (st : state)
  : outcome (list string) * state :=
  let source := _stringify source in
  (scope ← Scope_from_source source;
   '(unres, unref) ← find_unresolved_and_unreferenced_symbols scope;
   Return (elements unres), st).

(** One turn of the loop over the scores. *)
Definition fmt (c : Score * string * option string) : string :=
  match c with
  | (_, module, None) => "import " +:+ module
  | (_, module, Some variable) => "from " +:+ module +:+ " import " +:+ variable
  end.

Definition get_candidates_for_symbol (symbol : list string) (st : state)
  : outcome (list string) * state :=
  let symbol := _stringify symbol in
  match index st with
  | None => (Raise (AttributeError "symbol_scores"), st)
  | Some idx =>
      (scores ← symbol_scores idx symbol;
       Return (fold_left (fun candidates c => candidates ++ [fmt c]) scores []), st)
  end.

(** Lines 89 to 98: what the chosen statement adds to [imports]. *)
Definition add_chosen (imports : Imports) (import_statement : string) : outcome Imports :=
  if startswith import_statement "import " then
    let module := slice_from import_statement 7 in
    add_import imports module
  else
    let separator := find import_statement " import " in
    let module := slice import_statement 5 separator in
    if 0 <=? separator then
      add_import_from imports (slice import_statement 5 separator)
                      (slice_from import_statement (separator + 8))
    else Return imports.

Definition get_import_statement (source_and_import : list (list string)) (st : state)
  : outcome (Z * Z * string) * state :=
  (source ← subscript source_and_import 0;
   let source := _stringify source in
   import_statement ← subscript source_and_import 1;
   let import_statement := _stringify import_statement in
   imports ← Imports_new (index st) source;
   imports ← add_chosen imports import_statement;
   get_update imports, st).

End Server.

(** ** What the specification asks of the package *)

(** Modelled from the spec: the Scope Analyzer of section 4.2, which is the
    package's [Scope] and is not under src/.  Its contract is
    [analyze(sourceText) -> (unresolved, unreferenced) | ParseError]: it
    fails with a [ParseError] carrying a position when the source text is
    not syntactically valid, and otherwise gives the two sets of names.
    [valid] says which texts are syntactically valid, [unresolved] and
    [unreferenced] are the sets of a valid text; the [ParseError] is
    Python's [SyntaxError]. *)
Definition scope_analyzer_contract `{lib : Importmagic} (valid : string -> bool)
           (unresolved unreferenced : string -> gset string) : Prop :=
  (forall source, valid source = false ->
      exists pos, Scope_from_source source = Raise (SyntaxError pos))
  /\ (forall source, valid source = true ->
        exists scope,
          Scope_from_source source = Return scope
          /\ find_unresolved_and_unreferenced_symbols scope
             = Return (unresolved source, unreferenced source)).

(** Modelled from the spec: the lookup of the Candidate Ranker of section
    4.3, which is the package's [symbol_scores] and is not under src/.  Its
    contract is [rank(symbolName, index) -> ordered sequence of
    ImportSuggestion], with no error: it looks up all the entries of the
    index that export the name, by exact match, and gives one suggestion for
    each.  [hits idx name] is what the reverse mapping of the index [idx]
    (section 3) holds for [name]: pairs of a module and an optional
    symbol.  The order of the suggestions is left to the scores. *)
Definition candidate_ranker_contract `{lib : Importmagic}
           (hits : SymbolIndex -> string -> list (string * option string)) : Prop :=
  forall idx name,
    exists scores,
      symbol_scores idx name = Return scores
      /\ map (fun c : Score * string * option string => (c.1.2, c.2)) scores
         ≡ₚ hits idx name.

(** ** A small implementation of the package *)

Module Sample.

(** An index remembers the roots it was built from. *)
Record sample_index : Type := { roots : list string }.

(** The build fails when no root is readable; the empty string stands for
    an unreadable root. *)
Definition readable (root : string) : bool := negb (String.eqb root EmptyString).

Definition sample_build (idx : sample_index) (paths : list string)
  : option exn * sample_index :=
  if existsb readable paths then (None, {| roots := paths |})
  else (Some (Custom "OSError"), idx).

(** The symbols of a built index. *)
Definition sample_scores (idx : sample_index) (symbol : string)
  : outcome (list (nat * string * option string)) :=
  match roots idx with
  | [] => Return []
  | _ :: _ =>
      if String.eqb symbol "path" then
        Return [(12%nat, "os", Some "path"); (7%nat, "sys", Some "path")]
      else if String.eqb symbol "os" then Return [(12%nat, "os", None)]
      else if String.eqb symbol "join" then Return [(9%nat, "os.path", Some "join")]
      else Return []
  end.

(** A source is one expression; a closing bracket first is a syntax error,
    and a name is unresolved. *)
Definition sample_from_source (source : string) : outcome string :=
  if String.prefix ")" source then Raise (SyntaxError 0) else Return source.

Definition sample_unresolved (scope : string) : outcome (gset string * gset string) :=
  if String.eqb scope EmptyString then Return (∅, ∅) else Return ({[ scope ]}, ∅).

Record sample_imports : Type := {
  imp_index : option sample_index;
  imp_source : string;
  added : list (string * option string)
}.

Definition sample_add (imports : sample_imports) (entry : string * option string)
  : outcome sample_imports :=
  Return {| imp_index := imp_index imports; imp_source := imp_source imports;
            added := added imports ++ [entry] |}.

Definition sample_line (entry : string * option string) : string :=
  match entry with
  | (module, None) => "import " +:+ module
  | (module, Some name) => "from " +:+ module +:+ " import " +:+ name
  end.

(** The index is consulted only to place an added import. *)
Definition sample_update (imports : sample_imports) : outcome (Z * Z * string) :=
  match added imports with
  | [] => Return (0, 0, EmptyString)
  | entries =>
      match imp_index imports with
      | None => Raise (AttributeError "location_for")
      | Some _ => Return (0, 0, String.concat "; " (map sample_line entries))
      end
  end.

#[export] Instance lib : Importmagic := {|
  Score := nat;
  SymbolIndex := sample_index;
  Scope := string;
  Imports := sample_imports;
  SymbolIndex_new := Return {| roots := [] |};
  SymbolIndex_build_index := sample_build;
  symbol_scores := sample_scores;
  Scope_from_source := sample_from_source;
  find_unresolved_and_unreferenced_symbols := sample_unresolved;
  Imports_new := fun idx source =>
    Return {| imp_index := idx; imp_source := source; added := [] |};
  add_import := fun imports module => sample_add imports (module, None);
  add_import_from := fun imports module name => sample_add imports (module, Some name);
  get_update := sample_update
|}.

(** The process as it starts, and after a build over one root. *)
Definition started : state :=
  {| index := None; sys_path := []; stdout := [] |}.

Definition built : state :=
  {| index := Some {| roots := ["/usr/lib/python"; "/home/me/project"] |};
     sys_path := ["/usr/lib/python"]; stdout := [] |}.

(** The texts [sample_from_source] parses, and the names it finds in one. *)
Definition sample_valid (source : string) : bool := negb (String.prefix ")" source).

Definition sample_names (source : string) : gset string :=
  if String.eqb source EmptyString then ∅ else {[ source ]}.

(** What a built index holds for a name. *)
Definition sample_hits (idx : sample_index) (symbol : string)
  : list (string * option string) :=
  match roots idx with
  | [] => []
  | _ :: _ =>
      if String.eqb symbol "path" then [("os", Some "path"); ("sys", Some "path")]
      else if String.eqb symbol "os" then [("os", None)]
      else if String.eqb symbol "join" then [("os.path", Some "join")]
      else []
  end.

(** The same package on a machine where no index can be made. *)
Definition unconstructible : Importmagic := {|
  Score := nat;
  SymbolIndex := sample_index;
  Scope := string;
  Imports := sample_imports;
  SymbolIndex_new := Raise (Custom "MemoryError");
  SymbolIndex_build_index := sample_build;
  symbol_scores := sample_scores;
  Scope_from_source := sample_from_source;
  find_unresolved_and_unreferenced_symbols := sample_unresolved;
  Imports_new := fun idx source =>
    Return {| imp_index := idx; imp_source := source; added := [] |};
  add_import := fun imports module => sample_add imports (module, None);
  add_import_from := fun imports module name => sample_add imports (module, Some name);
  get_update := sample_update
|}.

Definition unstarted : @state unconstructible :=
  {| index := None; sys_path := ["/usr/lib/python"]; stdout := [] |}.

End Sample.

Example sample_build_index :
  build_index ["/home/me/"; "project"] (set_index Sample.built None) = (Return tt, Sample.built).
Proof. reflexivity. Qed.

Example sample_candidates :
  get_candidates_for_symbol ["pa"; "th"] Sample.built
  = (Return ["from os import path"; "from sys import path"], Sample.built).
Proof. reflexivity. Qed.

Example sample_import_statement :
  get_import_statement [["x = path"]; ["from os import path"]] Sample.built
  = (Return (0, 0, "from os import path"), Sample.built).
Proof. reflexivity. Qed.

Example sample_find : find "from a import b" " import " = 6 /\ find "abc" " import " = -1.
Proof. split; reflexivity. Qed.

Example sample_slice : slice "from a import b" 5 (-1) = "a import " /\ slice "abc" 5 (-1) = EmptyString.
Proof. split; reflexivity. Qed.

(** ** Facts about the string operations *)

Section StringFacts.

Lemma prefix_cons (a b : ascii) (p s : string) :
  String.prefix (String a p) (String b s)
  = if Ascii.eqb a b then String.prefix p s else false.
Proof.
  cbn [String.prefix].
  destruct (ascii_dec a b) as [->|Hne].
  - now rewrite Ascii.eqb_refl.
  - apply Ascii.eqb_neq in Hne. now rewrite Hne.
Qed.

Lemma append_cons (a : ascii) (p s : string) : String a p +:+ s = String a (p +:+ s).
Proof. reflexivity. Qed.

Lemma prefix_append (p s : string) : String.prefix p (p +:+ s) = true.
Proof.
  induction p as [|c p IH].
  - destruct s; reflexivity.
  - now rewrite append_cons, prefix_cons, Ascii.eqb_refl.
Qed.

Lemma str_drop_append (p s : string) (n : nat) :
  str_drop (String.length p + n) (p +:+ s) = str_drop n s.
Proof. induction p as [|c p IH]; simpl; [reflexivity | exact IH]. Qed.

Lemma str_drop_0 (s : string) : str_drop 0 s = s.
Proof. destruct s; reflexivity. Qed.

Lemma str_take_append (p s : string) : str_take (String.length p) (p +:+ s) = p.
Proof. induction p as [|c p IH]; simpl; [reflexivity | now rewrite IH]. Qed.

Lemma has_char_cons (c a : ascii) (s : string) :
  has_char c (String a s) = false -> Ascii.eqb a c = false /\ has_char c s = false.
Proof. simpl. destruct (Ascii.eqb a c); [discriminate | now split]. Qed.

Lemma find_from_here (sub s : string) (i : Z) :
  String.prefix sub s = true -> find_from sub s i = i.
Proof. intros H. destruct s; cbn [find_from]; now rewrite H. Qed.

(** A word without the first character of [sub] is skipped by [find]. *)
Lemma find_from_skip (c : ascii) (sub m rest : string) (i : Z) :
  has_char c m = false ->
  find_from (String c sub) (m +:+ rest) i
  = find_from (String c sub) rest (i + Z.of_nat (String.length m)).
Proof.
  revert i. induction m as [|a m IH]; intros i Hm.
  - simpl. f_equal. lia.
  - apply has_char_cons in Hm as [Hne Hm].
    rewrite append_cons. cbn [find_from]. rewrite prefix_cons.
    rewrite Ascii.eqb_sym, Hne, IH by exact Hm.
    f_equal. cbn [String.length]. lia.
Qed.

(** Of the words without a space, only [p] itself has [p] and a space in
    front of it when a space follows. *)
Lemma prefix_word (p m rest : string) :
  has_char " " p = false -> has_char " " m = false ->
  String.prefix (p +:+ " ") (m +:+ String " " rest) = true -> m = p.
Proof.
  revert m. induction p as [|a p IH]; intros m Hp Hm Hpre.
  - destruct m as [|b m]; [reflexivity|].
    apply has_char_cons in Hm as [Hne _].
    change (EmptyString +:+ " ") with (String " " EmptyString) in Hpre.
    rewrite append_cons, prefix_cons, Ascii.eqb_sym, Hne in Hpre. discriminate.
  - apply has_char_cons in Hp as [Hne Hp].
    rewrite append_cons in Hpre.
    destruct m as [|b m].
    + change (EmptyString +:+ String " " rest) with (String " " rest) in Hpre.
      rewrite prefix_cons, Hne in Hpre. discriminate.
    + apply has_char_cons in Hm as [_ Hm].
      rewrite append_cons, prefix_cons in Hpre.
      destruct (Ascii.eqb_spec a b) as [<-|_]; [|discriminate].
      f_equal. now apply (IH m).
Qed.

Lemma str_length_app (p s : string) :
  String.length (p +:+ s) = (String.length p + String.length s)%nat.
Proof. induction p as [|c p IH]; simpl; [reflexivity | now rewrite IH]. Qed.

Lemma app_assoc_str (p q s : string) : (p +:+ q) +:+ s = p +:+ (q +:+ s).
Proof.
  induction p as [|c p IH]; [reflexivity|].
  rewrite !append_cons. f_equal. exact IH.
Qed.

(** [(p + m + s)[len(p) : len(p) + len(m)]] is [m]. *)
Lemma slice_middle (p m s : string) :
  slice (p +:+ m +:+ s) (Z.of_nat (String.length p))
        (Z.of_nat (String.length p) + Z.of_nat (String.length m)) = m.
Proof.
  unfold slice, slice_bound. rewrite !str_length_app.
  destruct (Z.ltb_spec (Z.of_nat (String.length p)) 0) as [?|_]; [lia|].
  destruct (Z.ltb_spec (Z.of_nat (String.length p) + Z.of_nat (String.length m)) 0)
    as [?|_]; [lia|].
  rewrite !Z.min_l by lia.
  replace (Z.to_nat (Z.of_nat (String.length p))) with (String.length p + 0)%nat by lia.
  rewrite str_drop_append, str_drop_0.
  replace (Z.to_nat _) with (String.length m) by lia.
  apply str_take_append.
Qed.

(** [(p + s)[len(p):]] is [s]. *)
Lemma slice_from_append (p s : string) :
  slice_from (p +:+ s) (Z.of_nat (String.length p)) = s.
Proof.
  unfold slice_from, slice_bound. rewrite str_length_app.
  destruct (Z.ltb_spec (Z.of_nat (String.length p)) 0) as [?|_]; [lia|].
  rewrite Z.min_l by lia.
  replace (Z.to_nat (Z.of_nat (String.length p))) with (String.length p + 0)%nat by lia.
  now rewrite str_drop_append, str_drop_0.
Qed.

(** Where [find] sees the separator of a rendered from-import. *)
Lemma find_separator (m v : string) :
  has_char " " m = false -> m <> "import" ->
  find ("from " +:+ m +:+ " import " +:+ v) " import "
  = 5 + Z.of_nat (String.length m).
Proof.
  intros Hm Hne. unfold find.
  set (tail := m +:+ " import " +:+ v).
  change ("from " +:+ tail)
    with (String "f" (String "r" (String "o" (String "m" (String " " tail))))).
  do 4 (cbn [find_from]; rewrite prefix_cons;
        match goal with |- context [Ascii.eqb ?a ?b] =>
          change (Ascii.eqb a b) with false end; cbv iota).
  cbn [find_from]. rewrite prefix_cons.
  change (Ascii.eqb " " " ") with true. cbv iota.
  destruct (String.prefix "import " tail) eqn:Hpre.
  - exfalso. apply Hne. now apply (prefix_word "import" m ("import " +:+ v)).
  - unfold tail. rewrite find_from_skip by exact Hm.
    rewrite find_from_here by apply prefix_append. lia.
Qed.

End StringFacts.

(** ** What the chosen statement adds *)

Section Chosen.
Context {lib : Importmagic}.

Lemma stringify_one (s : string) : _stringify [s] = s.
Proof. reflexivity. Qed.

Lemma add_chosen_import (imports : Imports) (m : string) :
  add_chosen imports ("import " +:+ m) = add_import imports m.
Proof.
  unfold add_chosen, startswith. rewrite prefix_append. cbv zeta.
  change 7 with (Z.of_nat (String.length "import ")).
  now rewrite slice_from_append.
Qed.

Lemma add_chosen_from (imports : Imports) (m v : string) :
  has_char " " m = false -> String.eqb m "import" = false ->
  add_chosen imports ("from " +:+ m +:+ " import " +:+ v) = add_import_from imports m v.
Proof.
  intros Hm Hne. apply String.eqb_neq in Hne.
  unfold add_chosen, startswith.
  change (String.prefix "import " ("from " +:+ m +:+ " import " +:+ v)) with false.
  cbv iota zeta. rewrite find_separator by assumption.
  destruct (Z.leb_spec 0 (5 + Z.of_nat (String.length m))) as [_|?]; [|lia].
  change 5 with (Z.of_nat (String.length "from ")).
  rewrite (slice_middle "from " m (" import " +:+ v)).
  change (Z.of_nat (String.length "from ")) with 5.
  rewrite <- (app_assoc_str m " import " v), <- (app_assoc_str "from " _ v).
  replace (5 + Z.of_nat (String.length m) + 8)
    with (Z.of_nat (String.length ("from " +:+ m +:+ " import "))).
  - now rewrite slice_from_append.
  - rewrite !str_length_app. cbn [String.length]. lia.
Qed.

Lemma add_chosen_nothing (imports : Imports) (statement : string) :
  startswith statement "import " = false -> find statement " import " < 0 ->
  add_chosen imports statement = Return imports.
Proof.
  intros Hstart Hfind. unfold add_chosen. rewrite Hstart.
  destruct (Z.leb_spec 0 (find statement " import ")) as [?|_]; [lia | reflexivity].
Qed.

Lemma get_import_statement_two (source statement : list string) (st : state) :
  get_import_statement [source; statement] st
  = (imports ← Imports_new (index st) (_stringify source);
     imports ← add_chosen imports (_stringify statement);
     get_update imports, st).
Proof. reflexivity. Qed.

Lemma fold_candidates (scores : list (Score * string * option string))
      (candidates : list string) :
  fold_left (fun candidates c => candidates ++ [fmt c]) scores candidates
  = candidates ++ map fmt scores.
Proof.
  revert candidates. induction scores as [|c scores IH]; intros candidates; simpl.
  - now rewrite app_nil_r.
  - now rewrite IH, <- app_assoc.
Qed.

End Chosen.

(** ** Building the index *)

Section Build.
Context {lib : Importmagic}.

Lemma build_index_returns (path : list string) (st : state)
      (fresh built : SymbolIndex) :
  SymbolIndex_new = Return fresh ->
  SymbolIndex_build_index fresh (fullpath st path) = (None, built) ->
  build_index path st = (Return tt, set_index st (Some built)).
Proof. intros Hnew Hbuild. unfold build_index. now rewrite Hnew, Hbuild. Qed.

Lemma build_index_outcomes (path : list string) (st : state) :
  (exists fresh built,
      SymbolIndex_new = Return fresh
      /\ SymbolIndex_build_index fresh (fullpath st path) = (None, built)
      /\ build_index path st = (Return tt, set_index st (Some built)))
  \/ (exists st', build_index path st = (Raise (SystemExit (-1)), st')
                  /\ stdout st' = stdout st ++ ["Failed to build index"]).
Proof.
  unfold build_index.
  destruct SymbolIndex_new as [fresh|e].
  - destruct (SymbolIndex_build_index fresh (fullpath st path)) as [[e|] idx] eqn:Hb.
    + right. eexists. split; reflexivity.
    + left. exists fresh, idx. auto.
  - right. eexists. split; reflexivity.
Qed.

End Build.

(** C1, as amended.  [build_index] takes its arguments as the pieces of one
    root: the package is handed [sys.path] followed by the single string that
    joins them, a lone root argument is among the roots handed over, and when
    the package calls succeed the global index is the one built from exactly
    those roots. *)
Theorem build_index_one_root `{lib : Importmagic} (path : list string) (root : string)
        (st : state) (fresh built : SymbolIndex) :
  SymbolIndex_new = Return fresh ->
  SymbolIndex_build_index fresh (sys_path st ++ [String.concat EmptyString path]) = (None, built) ->
  fullpath st path = sys_path st ++ [String.concat EmptyString path]
  /\ root ∈ fullpath st [root]
  /\ build_index path st = (Return tt, set_index st (Some built)).
Proof.
  intros Hnew Hbuild. split; [reflexivity|]. split.
  - unfold fullpath. rewrite stringify_one. apply elem_of_app. right. constructor.
  - now apply (build_index_returns path st fresh built).
Qed.

(** C9.  Every build searches [sys.path]: the roots handed to the package
    are the entries of [sys.path], in order, followed by one more, the
    arguments joined into a single string. *)
Theorem build_index_searches_sys_path `{lib : Importmagic} (path : list string)
        (st : state) (fresh : SymbolIndex) :
  SymbolIndex_new = Return fresh ->
  (forall root, root ∈ sys_path st -> root ∈ fullpath st path)
  /\ last (fullpath st path) = Some (String.concat EmptyString path)
  /\ length (fullpath st path) = S (length (sys_path st))
  /\ build_index path st
     = match SymbolIndex_build_index fresh (sys_path st ++ [String.concat EmptyString path]) with
       | (None, built) => (Return tt, set_index st (Some built))
       | (Some _, broken) => failed_to_build (set_index st (Some broken))
       end.
Proof.
  intros Hnew. unfold fullpath, _stringify. repeat split.
  - intros root Hin. apply elem_of_app. now left.
  - apply last_snoc.
  - rewrite length_app. simpl. lia.
  - unfold build_index, fullpath, _stringify. now rewrite Hnew.
Qed.

(** C2, as amended.  A build whose package calls raise ends the process:
    when the construction of the index or its build raises, [build_index]
    prints the message and raises [SystemExit (-1)], never any other
    exception; it returns exactly when the package calls return, that is,
    whenever they return and only then, with the global index replaced by
    what the package built. *)
Theorem build_index_exits_on_failure `{lib : Importmagic} (path : list string) (st : state) :
  (forall e st', build_index path st = (Raise e, st') ->
     e = SystemExit (-1) /\ stdout st' = stdout st ++ ["Failed to build index"])
  /\ (forall st', build_index path st = (Return tt, st') ->
        exists fresh built,
          SymbolIndex_new = Return fresh
          /\ SymbolIndex_build_index fresh (fullpath st path) = (None, built)
          /\ st' = set_index st (Some built))
  /\ (forall fresh e broken,
        SymbolIndex_new = Return fresh ->
        SymbolIndex_build_index fresh (fullpath st path) = (Some e, broken) ->
        build_index path st
        = (Raise (SystemExit (-1)),
           print "Failed to build index" (set_index st (Some broken))))
  /\ (forall fresh built,
        SymbolIndex_new = Return fresh ->
        SymbolIndex_build_index fresh (sys_path st ++ [String.concat EmptyString path])
        = (None, built) ->
        build_index path st = (Return tt, set_index st (Some built)))
  /\ (forall e,
        SymbolIndex_new = Raise e ->
        build_index path st
        = (Raise (SystemExit (-1)), print "Failed to build index" st)).
Proof.
  split; [|split; [|split; [|split]]].
  - intros e st' H.
    destruct (build_index_outcomes path st)
      as [(fresh & built & _ & _ & Heq)|(st'' & Heq & Hout)]; [congruence|].
    split; congruence.
  - intros st' H.
    destruct (build_index_outcomes path st)
      as [(fresh & built & Hnew & Hb & Heq)|(st'' & Heq & Hout)]; [|congruence].
    exists fresh, built. repeat split; congruence.
  - intros fresh e broken Hnew Hb. unfold build_index. now rewrite Hnew, Hb.
  - intros fresh built Hnew Hb. now apply (build_index_returns path st fresh built).
  - intros e Hnew. unfold build_index. now rewrite Hnew.
Qed.

(** ** Candidates *)

(** C3.  With a built index, the candidates are the scored triples of the
    package, one string each and in the same order; a triple without a
    variable is rendered [import <module>], one with a variable
    [from <module> import <variable>], and no string has both forms. *)
Theorem candidates_rendered_in_order `{lib : Importmagic} (symbol : list string)
        (st : state) (idx : SymbolIndex) (scores : list (Score * string * option string)) :
  index st = Some idx ->
  symbol_scores idx (_stringify symbol) = Return scores ->
  exists candidates,
    get_candidates_for_symbol symbol st = (Return candidates, st)
    /\ length candidates = length scores
    /\ (forall i : nat,
          candidates !! i
          = match scores !! i with
            | Some (_, m, None) => Some ("import " +:+ m)
            | Some (_, m, Some v) => Some ("from " +:+ m +:+ " import " +:+ v)
            | None => None
            end)
    /\ (forall m m' v, "import " +:+ m <> "from " +:+ m' +:+ " import " +:+ v).
Proof.
  intros Hidx Hscores. exists (map fmt scores). repeat split.
  - unfold get_candidates_for_symbol. rewrite Hidx. cbv zeta. rewrite Hscores.
    cbn. now rewrite fold_candidates.
  - apply length_map.
  - intros i. change (map fmt scores) with (fmt <$> scores).
    rewrite list_lookup_fmap.
    destruct (scores !! i) as [[[score m] [v|]]|]; reflexivity.
  - intros m m' v H. discriminate H.
Qed.

(** C8.  Under the ranker's contract, a name with zero hits in the built
    index gives the empty list and no error: the name looked up is the
    argument's pieces joined, and the state is left as it was. *)
Theorem zero_hits_empty_candidates `{lib : Importmagic}
        (hits : SymbolIndex -> string -> list (string * option string))
        (symbol : list string) (st : state) (idx : SymbolIndex) :
  candidate_ranker_contract hits ->
  index st = Some idx ->
  hits idx (String.concat EmptyString symbol) = [] ->
  get_candidates_for_symbol symbol st = (Return [], st).
Proof.
  intros Hranker Hidx Hnone.
  destruct (Hranker idx (String.concat EmptyString symbol)) as (scores & Hscores & Hperm).
  rewrite Hnone in Hperm. apply Permutation_nil_r in Hperm.
  apply fmap_nil_inv in Hperm. subst scores.
  unfold get_candidates_for_symbol, _stringify.
  rewrite Hidx. cbv zeta. now rewrite Hscores.
Qed.

(** ** Unresolved symbols *)

(** C6.  Under the analyzer's contract, a source text that is not
    syntactically valid ends in the parser's error with its position, and
    no list comes back; a valid one gives the unresolved names of the text,
    each once.  The text is the argument's pieces joined, and the state is
    left as it was. *)
Theorem unresolved_symbols_or_parse_error `{lib : Importmagic} (valid : string -> bool)
        (unresolved unreferenced : string -> gset string)
        (source : list string) (st : state) :
  scope_analyzer_contract valid unresolved unreferenced ->
  (valid (String.concat EmptyString source) = false ->
     exists pos, get_unresolved_symbols source st = (Raise (SyntaxError pos), st))
  /\ (valid (String.concat EmptyString source) = true ->
        exists names,
          get_unresolved_symbols source st = (Return names, st)
          /\ NoDup names
          /\ forall name,
               name ∈ names <-> name ∈ unresolved (String.concat EmptyString source)).
Proof.
  intros [Hinvalid Hvalid]. split.
  - intros Hno. destruct (Hinvalid _ Hno) as [pos Hpos]. exists pos.
    unfold get_unresolved_symbols, _stringify. cbv zeta. now rewrite Hpos.
  - intros Hyes. destruct (Hvalid _ Hyes) as (scope & Hscope & Hfind).
    exists (elements (unresolved (String.concat EmptyString source))).
    split; [|split].
    + unfold get_unresolved_symbols, _stringify. cbv zeta. rewrite Hscope. cbn.
      now rewrite Hfind.
    + apply NoDup_elements.
    + intros name. apply elem_of_elements.
Qed.

(** ** The import statement *)

(** C4, as amended.  A rendered [import M] is read back as the module [M],
    whatever [M] is; a rendered [from M import S] is read back as [M] and
    [S] when [M] has no space in it and is not the word [import]. *)
Theorem rendered_suggestion_read_back `{lib : Importmagic} (source : list string)
        (st : state) (score : Score) :
  (forall m,
      get_import_statement [source; [fmt (score, m, None)]] st
      = (imports ← Imports_new (index st) (_stringify source);
         imports ← add_import imports m;
         get_update imports, st))
  /\ (forall m v,
        has_char " " m = false -> String.eqb m "import" = false ->
        get_import_statement [source; [fmt (score, m, Some v)]] st
        = (imports ← Imports_new (index st) (_stringify source);
           imports ← add_import_from imports m v;
           get_update imports, st)).
Proof.
  split.
  - intros m. rewrite get_import_statement_two, stringify_one. cbn [fmt].
    destruct (Imports_new (index st) (_stringify source)) as [imports|e]; [|reflexivity].
    cbn. now rewrite add_chosen_import.
  - intros m v Hm Hne. rewrite get_import_statement_two, stringify_one. cbn [fmt].
    destruct (Imports_new (index st) (_stringify source)) as [imports|e]; [|reflexivity].
    cbn. now rewrite add_chosen_from.
Qed.

(** C5, as amended.  On a source and a suggestion, [get_import_statement]
    refuses nothing.  A suggestion that starts with [import ] has the rest of
    it added as a module; any other suggestion in which [ import ] occurs
    has the text from offset 5 up to the first occurrence added as the
    module and the text after the occurrence as the name; a suggestion with
    neither adds nothing.  In each case the edit is the one the package
    computes, and an exception is the one a call of the package raised: the
    making of [Imports], the one addition the suggestion selects, or
    [get_update] after that addition. *)
Theorem suggestion_sliced_unvalidated `{lib : Importmagic} (source statement : list string)
        (st : state) :
  (startswith (String.concat EmptyString statement) "import " = true ->
   get_import_statement [source; statement] st
   = (imports ← Imports_new (index st) (String.concat EmptyString source);
      imports ← add_import imports (slice_from (String.concat EmptyString statement) 7);
      get_update imports, st))
  /\ (startswith (String.concat EmptyString statement) "import " = false ->
      0 <= find (String.concat EmptyString statement) " import " ->
      get_import_statement [source; statement] st
      = (imports ← Imports_new (index st) (String.concat EmptyString source);
         imports ← add_import_from imports
                     (slice (String.concat EmptyString statement) 5
                            (find (String.concat EmptyString statement) " import "))
                     (slice_from (String.concat EmptyString statement)
                                 (find (String.concat EmptyString statement) " import " + 8));
         get_update imports, st))
  /\ (startswith (String.concat EmptyString statement) "import " = false ->
      find (String.concat EmptyString statement) " import " < 0 ->
      get_import_statement [source; statement] st
      = (imports ← Imports_new (index st) (String.concat EmptyString source);
         get_update imports, st))
  /\ (forall e st',
        get_import_statement [source; statement] st = (Raise e, st') ->
        st' = st
        /\ (Imports_new (index st) (String.concat EmptyString source) = Raise e
            \/ exists imports,
                 Imports_new (index st) (String.concat EmptyString source) = Return imports
                 /\ ((startswith (String.concat EmptyString statement) "import " = true
                      /\ add_import imports
                           (slice_from (String.concat EmptyString statement) 7) = Raise e)
                     \/ (startswith (String.concat EmptyString statement) "import " = false
                         /\ 0 <= find (String.concat EmptyString statement) " import "
                         /\ add_import_from imports
                              (slice (String.concat EmptyString statement) 5
                                     (find (String.concat EmptyString statement) " import "))
                              (slice_from (String.concat EmptyString statement)
                                 (find (String.concat EmptyString statement) " import " + 8))
                            = Raise e)
                     \/ exists imports',
                          add_chosen imports (String.concat EmptyString statement)
                          = Return imports'
                          /\ get_update imports' = Raise e))).
Proof.
  rewrite get_import_statement_two. unfold _stringify.
  set (src := String.concat EmptyString source).
  set (s := String.concat EmptyString statement).
  split; [|split; [|split]].
  - intros Hstart.
    destruct (Imports_new (index st) src) as [imports|e]; [|reflexivity].
    cbn. unfold add_chosen. now rewrite Hstart.
  - intros Hstart Hfind.
    destruct (Imports_new (index st) src) as [imports|e]; [|reflexivity].
    cbn. unfold add_chosen. rewrite Hstart. cbv zeta.
    destruct (Z.leb_spec 0 (find s " import ")) as [_|?]; [reflexivity | lia].
  - intros Hstart Hfind.
    destruct (Imports_new (index st) src) as [imports|e]; [|reflexivity].
    cbn. now rewrite add_chosen_nothing.
  - intros e st' H.
    destruct (Imports_new (index st) src) as [imports|e0] eqn:Hnew; cbn in H.
    + destruct (add_chosen imports s) as [imports'|e1] eqn:Hadd; cbn in H.
      * split; [congruence|]. right. exists imports. split; [reflexivity|].
        right. right. exists imports'. split; [exact Hadd | congruence].
      * split; [congruence|]. right. exists imports. split; [reflexivity|].
        assert (e1 = e) as -> by congruence.
        unfold add_chosen in Hadd.
        destruct (startswith s "import ") eqn:Hstart; [now left|].
        cbv zeta in Hadd.
        destruct (Z.leb_spec 0 (find s " import ")) as [Hsep|_]; [|discriminate Hadd].
        right. left. auto.
    + split; [congruence|]. left. congruence.
Qed.

(** C10, as amended.  Before any build the candidates cannot be computed:
    the attribute [symbol_scores] is looked up on [None].  The import
    statement hands the [None] to the package, and ends as the package
    calls end. *)
Theorem before_any_build `{lib : Importmagic} (symbol source statement : list string)
        (st : state) :
  index st = None ->
  get_candidates_for_symbol symbol st = (Raise (AttributeError "symbol_scores"), st)
  /\ get_import_statement [source; statement] st
     = (imports ← Imports_new None (_stringify source);
        imports ← add_chosen imports (_stringify statement);
        get_update imports, st).
Proof.
  intros Hidx. split.
  - unfold get_candidates_for_symbol. now rewrite Hidx.
  - now rewrite get_import_statement_two, Hidx.
Qed.

(** ** The theorems on the sample package *)

Lemma build_index_one_root_witness :
  fullpath Sample.built ["/home/me/"; "project"] = ["/usr/lib/python"; "/home/me/project"]
  /\ "/srv/app" ∈ fullpath Sample.built ["/srv/app"]
  /\ build_index ["/home/me/"; "project"] Sample.built = (Return tt, Sample.built).
Proof.
  exact (@build_index_one_root Sample.lib ["/home/me/"; "project"] "/srv/app"
           Sample.built _ _ eq_refl eq_refl).
Defined.

(** Two root arguments are not two roots: they are joined into one. *)
Lemma build_index_joins_roots :
  fullpath Sample.started ["/srv/a"; "/srv/b"] = ["/srv/a/srv/b"]
  /\ build_index ["/srv/a"; "/srv/b"] Sample.started
     = (Return tt, set_index Sample.started (Some {| Sample.roots := ["/srv/a/srv/b"] |}))
  /\ ~ (forall root, root ∈ ["/srv/a"; "/srv/b"]
                     -> root ∈ fullpath Sample.started ["/srv/a"; "/srv/b"]).
Proof.
  split; [reflexivity|]. split; [reflexivity|].
  intros H. specialize (H "/srv/a" ltac:(constructor)).
  apply list_elem_of_In in H. destruct H as [H|[]]. discriminate H.
Qed.

Lemma build_index_searches_sys_path_witness :
  (forall root, root ∈ ["/usr/lib/python"] ->
                root ∈ fullpath Sample.built ["/home/me/"; "project"])
  /\ last (fullpath Sample.built ["/home/me/"; "project"]) = Some "/home/me/project"
  /\ length (fullpath Sample.built ["/home/me/"; "project"]) = 2%nat
  /\ build_index ["/home/me/"; "project"] Sample.built = (Return tt, Sample.built).
Proof.
  exact (@build_index_searches_sys_path Sample.lib ["/home/me/"; "project"]
           Sample.built _ eq_refl).
Defined.

Lemma build_index_exits_on_failure_witness :
  (SystemExit (-1) = SystemExit (-1)
   /\ stdout (build_index [] Sample.started).2 = ["Failed to build index"])
  /\ (exists fresh built,
         SymbolIndex_new = Return fresh
         /\ SymbolIndex_build_index fresh (fullpath Sample.built ["/home/me/project"])
            = (None, built)
         /\ Sample.built = set_index Sample.built (Some built))
  /\ build_index [] Sample.started
     = (Raise (SystemExit (-1)),
        print "Failed to build index"
              (set_index Sample.started (Some {| Sample.roots := [] |})))
  /\ build_index ["/home/me/"; "project"] (set_index Sample.built None)
     = (Return tt, Sample.built)
  /\ @build_index Sample.unconstructible ["/home/me/"; "project"] Sample.unstarted
     = (Raise (SystemExit (-1)), print "Failed to build index" Sample.unstarted).
Proof.
  split; [|split; [|split; [|split]]].
  - exact (proj1 (@build_index_exits_on_failure Sample.lib [] Sample.started)
             _ _ eq_refl).
  - exact (proj1 (proj2 (@build_index_exits_on_failure Sample.lib ["/home/me/project"]
                           Sample.built)) _ eq_refl).
  - exact (proj1 (proj2 (proj2 (@build_index_exits_on_failure Sample.lib []
                                  Sample.started)))
             _ _ _ eq_refl eq_refl).
  - exact (proj1 (proj2 (proj2 (proj2
             (@build_index_exits_on_failure Sample.lib ["/home/me/"; "project"]
                (set_index Sample.built None)))))
             _ _ eq_refl eq_refl).
  - exact (proj2 (proj2 (proj2 (proj2
             (@build_index_exits_on_failure Sample.unconstructible
                ["/home/me/"; "project"] Sample.unstarted))))
             _ eq_refl).
Defined.

(** A build that fails for want of a readable root ends in [SystemExit],
    not in [IndexError]. *)
Lemma build_failure_is_system_exit :
  @SymbolIndex_build_index Sample.lib {| Sample.roots := [] |} (fullpath Sample.started [])
  = (Some (Custom "OSError"), {| Sample.roots := [] |})
  /\ (build_index [] Sample.started).1 = Raise (SystemExit (-1))
  /\ (build_index [] Sample.started).1 <> Raise IndexError.
Proof. split; [reflexivity|]. split; [reflexivity|]. intros H. discriminate H. Qed.

Lemma candidates_rendered_in_order_witness :
  exists candidates,
    get_candidates_for_symbol ["pa"; "th"] Sample.built = (Return candidates, Sample.built)
    /\ length candidates = 2%nat
    /\ (forall i : nat,
          candidates !! i
          = match [(12%nat, "os", Some "path"); (7%nat, "sys", Some "path")] !! i with
            | Some (_, m, None) => Some ("import " +:+ m)
            | Some (_, m, Some v) => Some ("from " +:+ m +:+ " import " +:+ v)
            | None => None
            end)
    /\ (forall m m' v, "import " +:+ m <> "from " +:+ m' +:+ " import " +:+ v).
Proof.
  exact (@candidates_rendered_in_order Sample.lib ["pa"; "th"] Sample.built _ _
           eq_refl eq_refl).
Defined.

Lemma sample_candidate_ranker :
  @candidate_ranker_contract Sample.lib Sample.sample_hits.
Proof.
  intros idx name. cbn [symbol_scores Sample.lib].
  unfold Sample.sample_scores, Sample.sample_hits.
  destruct (Sample.roots idx) as [|root roots]; [exists []; split; reflexivity|].
  destruct (String.eqb name "path"); [eexists; split; reflexivity|].
  destruct (String.eqb name "os"); [eexists; split; reflexivity|].
  destruct (String.eqb name "join"); [eexists; split; reflexivity|].
  exists []. split; reflexivity.
Qed.

Lemma zero_hits_empty_candidates_witness :
  get_candidates_for_symbol ["zzz_"; "not_a_real_symbol"] Sample.built
  = (Return [], Sample.built).
Proof.
  exact (@zero_hits_empty_candidates Sample.lib Sample.sample_hits
           ["zzz_"; "not_a_real_symbol"] Sample.built _
           sample_candidate_ranker eq_refl eq_refl).
Defined.

Lemma sample_scope_analyzer :
  @scope_analyzer_contract Sample.lib Sample.sample_valid Sample.sample_names (fun _ => ∅).
Proof.
  split; intros source Hvalid; cbn [Scope_from_source Sample.lib];
    unfold Sample.sample_from_source; unfold Sample.sample_valid in Hvalid.
  - destruct (String.prefix ")" source); [|discriminate Hvalid]. now exists 0.
  - destruct (String.prefix ")" source); [discriminate Hvalid|].
    exists source. split; [reflexivity|].
    cbn [find_unresolved_and_unreferenced_symbols Sample.lib].
    unfold Sample.sample_unresolved, Sample.sample_names.
    now destruct (String.eqb source EmptyString).
Qed.

Lemma unresolved_symbols_or_parse_error_witness :
  (exists pos,
      get_unresolved_symbols [EmptyString; ")"; "x"] Sample.built
      = (Raise (SyntaxError pos), Sample.built))
  /\ exists names,
      get_unresolved_symbols ["x"; "y"] Sample.built = (Return names, Sample.built)
      /\ NoDup names
      /\ forall name, name ∈ names <-> name ∈ Sample.sample_names "xy".
Proof.
  split.
  - exact (proj1 (@unresolved_symbols_or_parse_error Sample.lib Sample.sample_valid
                    Sample.sample_names (fun _ => ∅) [EmptyString; ")"; "x"] Sample.built
                    sample_scope_analyzer) eq_refl).
  - exact (proj2 (@unresolved_symbols_or_parse_error Sample.lib Sample.sample_valid
                    Sample.sample_names (fun _ => ∅) ["x"; "y"] Sample.built
                    sample_scope_analyzer) eq_refl).
Defined.

Lemma rendered_suggestion_read_back_witness :
  get_import_statement [["x = join"]; ["from os.path import join"]] Sample.built
  = (imports ← @Imports_new Sample.lib (index Sample.built) "x = join";
     imports ← add_import_from imports "os.path" "join";
     get_update imports, Sample.built).
Proof.
  exact (proj2 (@rendered_suggestion_read_back Sample.lib ["x = join"] Sample.built 9%nat)
           "os.path" "join" eq_refl eq_refl).
Defined.

(** The module named [import] is rendered [from import import x], and read
    back as the empty module and the name [import x]. *)
Lemma round_trip_counterexample :
  @fmt Sample.lib (5%nat, "import", Some "x") = "from import import x"
  /\ find "from import import x" " import " = 4
  /\ @add_chosen Sample.lib
       {| Sample.imp_index := None; Sample.imp_source := EmptyString; Sample.added := [] |}
       (@fmt Sample.lib (5%nat, "import", Some "x"))
     = @add_import_from Sample.lib
         {| Sample.imp_index := None; Sample.imp_source := EmptyString; Sample.added := [] |}
         EmptyString "import x"
  /\ get_import_statement [[EmptyString]; [@fmt Sample.lib (5%nat, "import", Some "x")]] Sample.built
     <> (imports ← @Imports_new Sample.lib (index Sample.built) EmptyString;
         imports ← add_import_from imports "import" "x";
         get_update imports, Sample.built).
Proof.
  split; [reflexivity|]. split; [reflexivity|]. split; [reflexivity|].
  intros H. vm_compute in H. discriminate H.
Qed.

Lemma suggestion_sliced_unvalidated_witness :
  get_import_statement [["x = 1"]; ["import "; "os..path"]] Sample.built
  = (Return (0, 0, "import os..path"), Sample.built)
  /\ get_import_statement [["x = 1"]; ["os import"; " path"]] Sample.built
     = (Return (0, 0, "from  import path"), Sample.built)
  /\ get_import_statement [["x = 1"]; ["os."; "path"]] Sample.built
     = (Return (0, 0, EmptyString), Sample.built)
  /\ Sample.started = Sample.started
  /\ (@Imports_new Sample.lib None "x = 1" = Raise (AttributeError "location_for")
      \/ exists imports,
           @Imports_new Sample.lib None "x = 1" = Return imports
           /\ ((startswith "import os" "import " = true
                /\ add_import imports (slice_from "import os" 7)
                   = Raise (AttributeError "location_for"))
               \/ (startswith "import os" "import " = false
                   /\ 0 <= find "import os" " import "
                   /\ add_import_from imports
                        (slice "import os" 5 (find "import os" " import "))
                        (slice_from "import os" (find "import os" " import " + 8))
                      = Raise (AttributeError "location_for"))
               \/ exists imports',
                    add_chosen imports "import os" = Return imports'
                    /\ get_update imports' = Raise (AttributeError "location_for"))).
Proof.
  split; [|split; [|split]].
  - exact (proj1 (@suggestion_sliced_unvalidated Sample.lib ["x = 1"]
                    ["import "; "os..path"] Sample.built) eq_refl).
  - refine (proj1 (proj2 (@suggestion_sliced_unvalidated Sample.lib ["x = 1"]
                            ["os import"; " path"] Sample.built)) eq_refl _).
    vm_compute. discriminate.
  - exact (proj1 (proj2 (proj2 (@suggestion_sliced_unvalidated Sample.lib ["x = 1"]
                                  ["os."; "path"] Sample.built))) eq_refl eq_refl).
  - exact (proj2 (proj2 (proj2 (@suggestion_sliced_unvalidated Sample.lib ["x = 1"]
                                  ["import os"] Sample.started))) _ _ eq_refl).
Defined.

(** A statement of neither form is not refused: an edit comes back. *)
Lemma malformed_suggestion_returns_edit :
  startswith "os..path" "import " = false
  /\ find "os..path" " import " = -1
  /\ get_import_statement [["x = 1"]; ["os..path"]] Sample.built
     = (Return (0, 0, EmptyString), Sample.built)
  /\ ~ (exists e st',
           get_import_statement [["x = 1"]; ["os..path"]] Sample.built = (Raise e, st')).
Proof.
  split; [reflexivity|]. split; [reflexivity|]. split; [reflexivity|].
  intros (e & st' & H). discriminate H.
Qed.

Lemma before_any_build_witness :
  get_candidates_for_symbol ["path"] Sample.started
  = (Raise (AttributeError "symbol_scores"), Sample.started)
  /\ get_import_statement [["x = path"]; ["from os import path"]] Sample.started
     = (imports ← @Imports_new Sample.lib None "x = path";
        imports ← add_chosen imports "from os import path";
        get_update imports, Sample.started).
Proof.
  exact (@before_any_build Sample.lib ["path"] ["x = path"] ["from os import path"]
           Sample.started eq_refl).
Defined.

(** Before any build, an import statement that adds nothing still gets its
    edit: the [None] index is never looked into. *)
Lemma edit_before_build_returns :
  index Sample.started = None
  /\ get_import_statement [["x = 1"]; ["os.path"]] Sample.started
     = (Return (0, 0, EmptyString), Sample.started)
  /\ ~ (exists e st',
           get_import_statement [["x = 1"]; ["os.path"]] Sample.started = (Raise e, st')).
Proof.
  split; [reflexivity|]. split; [reflexivity|].
  intros (e & st' & H). discriminate H.
Qed.

(** ** Further properties of the server *)

Section Joining.

Lemma str_app_nil_r (s : string) : s +:+ EmptyString = s.
Proof. induction s as [|c s IH]; [reflexivity|]. rewrite append_cons. now rewrite IH. Qed.

Lemma stringify_cons (x : string) (xs : list string) :
  _stringify (x :: xs) = x +:+ _stringify xs.
Proof.
  unfold _stringify. destruct xs as [|y ys].
  - cbn [String.concat]. now rewrite str_app_nil_r.
  - reflexivity.
Qed.

Lemma has_char_app (c : ascii) (a b : string) :
  has_char c (a +:+ b) = has_char c a || has_char c b.
Proof.
  induction a as [|x a IH]; [reflexivity|].
  rewrite append_cons. cbn [has_char]. now destruct (Ascii.eqb x c).
Qed.

(** Where [sub] occurs, [find] finds something. *)
Lemma find_from_found (sub a b : string) (i : Z) :
  0 <= i -> 0 <= find_from sub (a +:+ sub +:+ b) i.
Proof.
  revert i. induction a as [|c a IH]; intros i Hi.
  - change (EmptyString +:+ sub +:+ b) with (sub +:+ b).
    now rewrite find_from_here by apply prefix_append.
  - rewrite append_cons. cbn [find_from].
    destruct (String.prefix sub (String c (a +:+ sub +:+ b))); [exact Hi|].
    apply IH. lia.
Qed.

End Joining.

(** The pieces EPC makes of a string join back to that string: what
    [_stringify] receives from Emacs Lisp is what was sent. *)
Theorem stringify_chars (s : string) : _stringify (chars s) = s.
Proof.
  induction s as [|c s IH]; [reflexivity|].
  change (chars (String c s)) with (String c EmptyString :: chars s).
  rewrite stringify_cons, IH. reflexivity.
Qed.

(** Joining goes through concatenation: however the pieces of an argument
    are grouped, [_stringify] gives the same text. *)
Theorem stringify_app (xs ys : list string) :
  _stringify (xs ++ ys) = _stringify xs +:+ _stringify ys.
Proof.
  induction xs as [|x xs IH]; [reflexivity|].
  change ((x :: xs) ++ ys) with (x :: (xs ++ ys)).
  now rewrite !stringify_cons, IH, app_assoc_str.
Qed.

(** [get_import_statement] needs two arguments: with fewer the subscript
    raises [IndexError] before the package is called, and arguments after
    the second are ignored. *)
Theorem get_import_statement_arity `{lib : Importmagic}
        (source_and_import : list (list string)) (st : state) :
  ((length source_and_import < 2)%nat ->
   get_import_statement source_and_import st = (Raise IndexError, st))
  /\ (forall source statement,
        get_import_statement (source :: statement :: source_and_import) st
        = get_import_statement [source; statement] st).
Proof.
  split.
  - intros Hlen. destruct source_and_import as [|a [|b rest]].
    + reflexivity.
    + reflexivity.
    + simpl in Hlen. lia.
  - reflexivity.
Qed.

Lemma get_import_statement_arity_witness :
  get_import_statement [["x = 1"]] Sample.built = (Raise IndexError, Sample.built).
Proof.
  exact (proj1 (@get_import_statement_arity Sample.lib [["x = 1"]] Sample.built)
           ltac:(simpl; lia)).
Defined.

(** A build replaces the index and adds nothing to it: the previous index
    has no part in the outcome, nor in the index a returning build leaves. *)
Theorem build_index_replaces `{lib : Importmagic} (path : list string) (st1 st2 : state) :
  sys_path st1 = sys_path st2 ->
  (build_index path st1).1 = (build_index path st2).1
  /\ ((build_index path st1).1 = Return tt ->
      index (build_index path st1).2 = index (build_index path st2).2).
Proof.
  intros Hpath. unfold build_index, fullpath. rewrite Hpath.
  destruct SymbolIndex_new as [fresh|e]; [|split; [reflexivity | discriminate]].
  destruct (SymbolIndex_build_index fresh (sys_path st2 ++ [_stringify path]))
    as [[e|] idx]; split; try reflexivity; discriminate.
Qed.

Lemma build_index_replaces_witness :
  (build_index ["/home/me/project"] Sample.built).1
  = (build_index ["/home/me/project"] (set_index Sample.built None)).1
  /\ index (build_index ["/home/me/project"] Sample.built).2
     = index (build_index ["/home/me/project"] (set_index Sample.built None)).2.
Proof.
  destruct (@build_index_replaces Sample.lib ["/home/me/project"] Sample.built
              (set_index Sample.built None) eq_refl) as [Hout Hidx].
  split; [exact Hout | exact (Hidx eq_refl)].
Defined.

(** A build never touches [sys.path]; it prints nothing when it returns, and
    the one line [Failed to build index] when it does not. *)
Theorem build_index_frame `{lib : Importmagic} (path : list string) (st : state) :
  sys_path (build_index path st).2 = sys_path st
  /\ ((build_index path st).1 = Return tt ->
      stdout (build_index path st).2 = stdout st)
  /\ ((build_index path st).1 <> Return tt ->
      stdout (build_index path st).2 = stdout st ++ ["Failed to build index"]).
Proof.
  unfold build_index.
  destruct SymbolIndex_new as [fresh|e].
  - destruct (SymbolIndex_build_index fresh (fullpath st path)) as [[e|] idx];
      cbn; repeat split; try reflexivity; try discriminate; intros H; now destruct H.
  - cbn. repeat split; try reflexivity; try discriminate.
Qed.

Lemma build_index_frame_witness :
  stdout (build_index ["/home/me/project"] Sample.built).2 = []
  /\ stdout (build_index [] Sample.started).2 = ["Failed to build index"].
Proof.
  split.
  - exact (proj1 (proj2 (@build_index_frame Sample.lib ["/home/me/project"] Sample.built))
             eq_refl).
  - exact (proj2 (proj2 (@build_index_frame Sample.lib [] Sample.started))
             ltac:(discriminate)).
Defined.

(** After a build that returned, the index is there: the candidates of a
    name are the rendered scores of the index just built from [sys.path] and
    the joined argument. *)
Theorem build_then_candidates `{lib : Importmagic} (path symbol : list string)
        (st st' : state) :
  build_index path st = (Return tt, st') ->
  exists built,
    index st' = Some built
    /\ (exists fresh, SymbolIndex_new = Return fresh
                      /\ SymbolIndex_build_index fresh (fullpath st path) = (None, built))
    /\ get_candidates_for_symbol symbol st'
       = (scores ← symbol_scores built (_stringify symbol); Return (map fmt scores), st').
Proof.
  intros Hbuild.
  destruct (build_index_outcomes path st)
    as [(fresh & built & Hnew & Hb & Heq)|(st'' & Heq & _)]; [|congruence].
  assert (st' = set_index st (Some built)) as -> by congruence.
  exists built. split; [reflexivity|]. split; [eauto|].
  unfold get_candidates_for_symbol. cbn.
  destruct (symbol_scores built (_stringify symbol)) as [scores|e]; [|reflexivity].
  cbn. now rewrite fold_candidates.
Qed.

Lemma build_then_candidates_witness :
  exists built,
    index Sample.built = Some built
    /\ (exists fresh,
           SymbolIndex_new = Return fresh
           /\ SymbolIndex_build_index fresh
                (fullpath (set_index Sample.built None) ["/home/me/project"])
              = (None, built))
    /\ get_candidates_for_symbol ["os"] Sample.built
       = (scores ← symbol_scores built "os"; Return (map fmt scores), Sample.built).
Proof.
  exact (@build_then_candidates Sample.lib ["/home/me/project"] ["os"]
           (set_index Sample.built None) Sample.built eq_refl).
Defined.

Section Parsing.
Context {lib : Importmagic}.

(** A word and the separator: [find] stops at the end of the word. *)
Lemma find_after_word (w v : string) :
  has_char " " w = false ->
  find (w +:+ " import " +:+ v) " import " = Z.of_nat (String.length w).
Proof.
  intros Hw. unfold find. rewrite find_from_skip by exact Hw.
  rewrite find_from_here by apply prefix_append. lia.
Qed.

(** A word and the separator start with [import ] only if the word is
    [import]. *)
Lemma word_not_import (w v : string) :
  has_char " " w = false -> String.eqb w "import" = false ->
  startswith (w +:+ " import " +:+ v) "import " = false.
Proof.
  intros Hw Hne. apply String.eqb_neq in Hne. unfold startswith.
  destruct (String.prefix "import " (w +:+ " import " +:+ v)) eqn:Hpre; [|reflexivity].
  exfalso. apply Hne. now apply (prefix_word "import" w ("import " +:+ v)).
Qed.

End Parsing.

(** The first five characters of a from-import are cut off unread: any five
    characters without a space in place of [from ] give the same module and
    name. *)
Theorem from_keyword_unchecked `{lib : Importmagic} (imports : Imports) (p m v : string) :
  String.length p = 5%nat ->
  has_char " " p = false -> has_char " " m = false ->
  String.eqb (p +:+ m) "import" = false ->
  add_chosen imports (p +:+ m +:+ " import " +:+ v) = add_import_from imports m v.
Proof.
  intros Hlen Hp Hm Hne.
  assert (Hpm : has_char " " (p +:+ m) = false) by now rewrite has_char_app, Hp, Hm.
  unfold add_chosen. rewrite <- (app_assoc_str p m).
  rewrite word_not_import, find_after_word by assumption. cbv zeta.
  rewrite str_length_app, Hlen.
  destruct (Z.leb_spec 0 (Z.of_nat (5 + String.length m))) as [_|?]; [|lia].
  rewrite (app_assoc_str p m).
  replace (Z.of_nat (5 + String.length m))
    with (Z.of_nat (String.length p) + Z.of_nat (String.length m)) by lia.
  replace 5 with (Z.of_nat (String.length p)) at 1 by lia.
  rewrite (slice_middle p m (" import " +:+ v)).
  rewrite <- (app_assoc_str m " import " v), <- (app_assoc_str p _ v).
  replace (Z.of_nat (String.length p) + Z.of_nat (String.length m) + 8)
    with (Z.of_nat (String.length (p +:+ m +:+ " import "))).
  - now rewrite slice_from_append.
  - rewrite !str_length_app. cbn [String.length]. lia.
Qed.

Lemma from_keyword_unchecked_witness :
  @add_chosen Sample.lib
    {| Sample.imp_index := None; Sample.imp_source := "x = path"; Sample.added := [] |}
    "xxxxxos import path"
  = @add_import_from Sample.lib
      {| Sample.imp_index := None; Sample.imp_source := "x = path"; Sample.added := [] |}
      "os" "path".
Proof.
  exact (@from_keyword_unchecked Sample.lib _ "xxxxx" "os" "path"
           eq_refl eq_refl eq_refl eq_refl).
Defined.

(** A statement whose separator comes within its first five characters has
    the empty module: [os import path] asks for [path] from no module. *)
Theorem short_statement_empty_module `{lib : Importmagic} (imports : Imports) (w v : string) :
  (String.length w <= 5)%nat ->
  has_char " " w = false ->
  add_chosen imports (w +:+ " import " +:+ v) = add_import_from imports EmptyString v.
Proof.
  intros Hlen Hw.
  assert (Hne : String.eqb w "import" = false).
  { apply String.eqb_neq. intros ->. simpl in Hlen. lia. }
  unfold add_chosen. rewrite word_not_import, find_after_word by assumption. cbv zeta.
  destruct (Z.leb_spec 0 (Z.of_nat (String.length w))) as [_|?]; [|lia].
  f_equal.
  - unfold slice, slice_bound. rewrite !str_length_app. cbn [String.length].
    destruct (Z.ltb_spec 5 0) as [?|_]; [lia|].
    destruct (Z.ltb_spec (Z.of_nat (String.length w)) 0) as [?|_]; [lia|].
    replace (Z.to_nat _) with 0%nat by lia. reflexivity.
  - rewrite <- (app_assoc_str w " import " v).
    replace (Z.of_nat (String.length w) + 8)
      with (Z.of_nat (String.length (w +:+ " import "))).
    + now rewrite slice_from_append.
    + rewrite str_length_app. cbn [String.length]. lia.
Qed.

Lemma short_statement_empty_module_witness :
  @add_chosen Sample.lib
    {| Sample.imp_index := None; Sample.imp_source := "x = path"; Sample.added := [] |}
    "os import path"
  = @add_import_from Sample.lib
      {| Sample.imp_index := None; Sample.imp_source := "x = path"; Sample.added := [] |}
      EmptyString "path".
Proof.
  exact (@short_statement_empty_module Sample.lib _ "os" "path"
           ltac:(simpl; lia) eq_refl).
Defined.

(** Two candidates with different modules or variables are rendered
    differently, when the modules are words other than [import]: the string
    the user picks names one candidate. *)
Theorem fmt_injective `{lib : Importmagic} (s1 s2 : Score) (m1 m2 : string)
        (v1 v2 : option string) :
  has_char " " m1 = false -> String.eqb m1 "import" = false ->
  has_char " " m2 = false -> String.eqb m2 "import" = false ->
  fmt (s1, m1, v1) = fmt (s2, m2, v2) ->
  m1 = m2 /\ v1 = v2.
Proof.
  intros Hm1 Hne1 Hm2 Hne2 H.
  apply String.eqb_neq in Hne1, Hne2.
  destruct v1 as [v1|], v2 as [v2|]; cbn [fmt] in H.
  - assert (Hlen : String.length m1 = String.length m2).
    { pose proof (find_separator m1 v1 Hm1 Hne1) as F1.
      pose proof (find_separator m2 v2 Hm2 Hne2) as F2.
      rewrite H in F1. lia. }
    assert (Htail : m1 +:+ " import " +:+ v1 = m2 +:+ " import " +:+ v2).
    { change ("from " +:+ m1 +:+ " import " +:+ v1)
        with (String "f" (String "r" (String "o" (String "m" (String " "
                (m1 +:+ " import " +:+ v1)))))) in H.
      now inversion H. }
    assert (Hm : m1 = m2).
    { rewrite <- (str_take_append m1 (" import " +:+ v1)), Htail, Hlen.
      apply str_take_append. }
    subst m2. split; [reflexivity|]. f_equal.
    pose proof (str_drop_append m1 (" import " +:+ v1) 8) as D1.
    pose proof (str_drop_append m1 (" import " +:+ v2) 8) as D2.
    rewrite Htail in D1. rewrite D1 in D2. exact D2.
  - discriminate H.
  - discriminate H.
  - split; [|reflexivity].
    change ("import " +:+ m1) with (String "i" (String "m" (String "p" (String "o"
              (String "r" (String "t" (String " " m1))))))) in H.
    now inversion H.
Qed.

Lemma fmt_injective_witness :
  "os.path" = "os.path" /\ Some "join" = Some "join".
Proof.
  exact (@fmt_injective Sample.lib 9%nat 4%nat "os.path" "os.path" (Some "join")
           (Some "join") eq_refl eq_refl eq_refl eq_refl eq_refl).
Defined.

(** A rendered candidate is never taken for a statement of neither form:
    given back to [get_import_statement], it always adds an import, whole or
    from a module, whatever its module and variable are. *)
Theorem rendered_candidate_adds_import `{lib : Importmagic} (imports : Imports)
        (c : Score * string * option string) :
  (exists m, add_chosen imports (fmt c) = add_import imports m)
  \/ (exists m name, add_chosen imports (fmt c) = add_import_from imports m name).
Proof.
  destruct c as [[score m] [v|]]; cbn [fmt].
  - right. unfold add_chosen, startswith.
    change (String.prefix "import " ("from " +:+ m +:+ " import " +:+ v)) with false.
    cbv iota zeta.
    assert (Hfound : 0 <= find ("from " +:+ m +:+ " import " +:+ v) " import ").
    { unfold find. rewrite <- (app_assoc_str "from " m).
      apply find_from_found. lia. }
    destruct (Z.leb_spec 0 (find ("from " +:+ m +:+ " import " +:+ v) " import "))
      as [_|?]; [|lia].
    eauto.
  - left. exists m. apply add_chosen_import.
Qed.

(** From the candidates to the edit: when the modules of the index are words
    other than [import], whichever candidate of the list is given back to
    [get_import_statement] has the module and variable of its own triple
    handed to the package. *)
Theorem chosen_candidate_is_added `{lib : Importmagic} (symbol source : list string)
        (st : state) (idx : SymbolIndex) (scores : list (Score * string * option string)) :
  index st = Some idx ->
  symbol_scores idx (_stringify symbol) = Return scores ->
  Forall (fun t => has_char " " t.1.2 = false /\ String.eqb t.1.2 "import" = false) scores ->
  exists candidates,
    get_candidates_for_symbol symbol st = (Return candidates, st)
    /\ forall (i : nat) (c : string),
        candidates !! i = Some c ->
        exists score m v,
          scores !! i = Some (score, m, v)
          /\ get_import_statement [source; [c]] st
             = (imports ← Imports_new (index st) (_stringify source);
                imports ← match v with
                          | None => add_import imports m
                          | Some name => add_import_from imports m name
                          end;
                get_update imports, st).
Proof.
  intros Hidx Hscores Hwords. exists (map fmt scores). split.
  - unfold get_candidates_for_symbol. rewrite Hidx. cbv zeta. rewrite Hscores.
    cbn. now rewrite fold_candidates.
  - intros i c Hc. change (map fmt scores) with (fmt <$> scores) in Hc.
    rewrite list_lookup_fmap in Hc.
    destruct (scores !! i) as [[[score m] v]|] eqn:Hi; [|discriminate].
    cbn in Hc. injection Hc as <-.
    exists score, m, v. split; [reflexivity|].
    rewrite get_import_statement_two, stringify_one.
    destruct (Imports_new (index st) (_stringify source)) as [imports|e]; [|reflexivity].
    cbn [mbind outcome_bind].
    rewrite Forall_lookup in Hwords. destruct (Hwords i _ Hi) as [Hm Hne].
    destruct v as [name|]; cbn [fmt].
    + now rewrite add_chosen_from.
    + now rewrite add_chosen_import.
Qed.

Lemma chosen_candidate_is_added_witness :
  exists candidates,
    get_candidates_for_symbol ["path"] Sample.built = (Return candidates, Sample.built)
    /\ forall (i : nat) (c : string),
        candidates !! i = Some c ->
        exists score m v,
          [(12%nat, "os", Some "path"); (7%nat, "sys", Some "path")] !! i
          = Some (score, m, v)
          /\ get_import_statement [["x = path"]; [c]] Sample.built
             = (imports ← @Imports_new Sample.lib (index Sample.built) "x = path";
                imports ← match v with
                          | None => add_import imports m
                          | Some name => add_import_from imports m name
                          end;
                get_update imports, Sample.built).
Proof.
  exact (@chosen_candidate_is_added Sample.lib ["path"] ["x = path"] Sample.built _ _
           eq_refl eq_refl
           ltac:(repeat constructor)).
Defined.
